(** * Robottelo: entity model and CLI factory

    A shallow embedding of [robottelo/orm.py] (field value synthesis,
    one-to-many assignment, entity paths, value serialisation) and of the
    creation protocol of [robottelo/cli/factory.py] ([create_object],
    [make_activation_key], [make_org]), with the properties the
    specification states about them. *)

From Stdlib Require Import ZArith QArith String Ascii List Lia.
From stdpp Require Import base gmap strings list.

Local Set Warnings "-register-all".
Local Open Scope string_scope.

(* ===================================================================== *)
(** ** Python values, exceptions and results *)
(* ===================================================================== *)

Module Py.

(** The Python objects that reach the modelled functions.  A [dict] with
    string keys is a [gmap string]; a [list] and a [tuple] are kept apart
    because [collections.MutableSequence] tells them apart; [PObj] is an
    instance of a booby model (an entity), with the name of its class and
    the values of its fields. *)
Inductive pyval : Type :=
  | PNone
  | PBool (b : bool)
  | PInt (z : Z)
  | PFloat (q : Q)
  | PStr (s : string)
  | PList (l : list pyval)
  | PTuple (l : list pyval)
  | PDict (d : gmap string pyval)
  | PObj (cls : string) (data : gmap string pyval).

(** The exceptions the modelled code raises or lets through. *)
Inductive exn : Type :=
  | NoSuchPathError
  | CLIFactoryError (msg : string)
  | ValueError
  | TypeError
  | AttributeError.

Inductive result (A : Type) : Type :=
  | Ok (a : A)
  | Raise (e : exn).
Arguments Ok {A} a.
Arguments Raise {A} e.

Definition bind {A B : Type} (m : result A) (k : A -> result B) : result B :=
  match m with
  | Ok a => k a
  | Raise e => Raise e
  end.

(** [x is None] *)
Definition is_none (v : pyval) : bool :=
  match v with PNone => true | _ => false end.

(** [x == 'literal'] for a string literal *)
Definition str_eq (v : pyval) (lit : string) : bool :=
  match v with PStr s => String.eqb s lit | _ => false end.

(** Truth value testing ([bool(x)], [not x]). *)
Definition truthy (v : pyval) : bool :=
  match v with
  | PNone => false
  | PBool b => b
  | PInt z => negb (Z.eqb z 0)
  | PFloat q => negb (Qeq_bool q (inject_Z 0))
  | PStr s => negb (String.eqb s "")
  | PList l | PTuple l => negb (Nat.eqb (length l) 0)
  | PDict d => negb (Nat.eqb (size d) 0)
  | PObj _ _ => true
  end.

(** [d.get(key)], [d.get(key, None)] *)
Definition dict_get (d : gmap string pyval) (key : string) : pyval :=
  match d !! key with Some v => v | None => PNone end.

(** The source of randomness: an endless tape of draws.  A generator reads
    the head of the tape; the next generator is given the [advance]d tape. *)
Definition rand : Type := nat -> nat.
Definition advance (r : rand) : rand := fun i => r (S i).

(** What the modelled code takes from Python and its standard library.
    [dict_update_iterable] is [dict.update] on an argument that is not a
    mapping (Python then reads it as an iterable of key/value pairs). *)
Class Platform : Type := {
  urljoin : string -> string -> string;
  py_str : pyval -> string;
  py_repr : pyval -> string;
  dict_update_iterable : gmap string pyval -> pyval -> result (gmap string pyval)
}.

(** [d.update(other)]: the entries of a mapping [other] replace and extend
    those of [d]. *)
Definition dict_update `{Platform} (d : gmap string pyval) (other : pyval)
  : result (gmap string pyval) :=
  match other with
  | PDict o => Ok (o ∪ d)
  | _ => dict_update_iterable d other
  end.

Definition newline : string := String (ascii_of_nat 10) EmptyString.

(** [s.split('\n')] *)
Fixpoint split_lines (s : string) : list string :=
  match s with
  | EmptyString => [EmptyString]
  | String c s' =>
      if Ascii.eqb c (ascii_of_nat 10) then EmptyString :: split_lines s'
      else match split_lines s' with
           | [] => [String c EmptyString]
           | line :: lines => String c line :: lines
           end
  end.

(** A string without a line break. *)
Inductive one_line : string -> Prop :=
  | one_line_empty : one_line ""
  | one_line_char (c : ascii) (s : string) :
      Ascii.eqb c (ascii_of_nat 10) = false -> one_line s ->
      one_line (String c s).

(** [sep.join(parts)] *)
Fixpoint join (sep : string) (parts : list string) : string :=
  match parts with
  | [] => EmptyString
  | [p] => p
  | p :: ps => p ++ sep ++ join sep ps
  end.

(** [sub in s] for strings *)
Definition contains (s sub : string) : Prop :=
  exists before after, s = before ++ sub ++ after.

End Py.
Export Py.

Declare Scope py_scope.
Delimit Scope py_scope with py.
Notation "'let!' x ':=' m 'in' k" := (Py.bind m (fun x => k))
  (at level 10, x name, m at level 100, k at level 200) : py_scope.

(* ===================================================================== *)
(** ** robottelo/orm.py *)
(* ===================================================================== *)

Module Orm.
Local Open Scope py_scope.

(** An entity class: a subclass of [Entity] with its name and the
    [api_path] of its inner [Meta] class ([Entity.path] requires subclasses
    to set it). *)
Record EntityClass : Type := {
  cls_name : string;
  Meta_api_path : string
}.

(** The argument of a relationship field: a class, or the name of a class of
    [robottelo.entities], looked up when needed. *)
Inductive class_or_name : Type :=
  | AClass (c : EntityClass)
  | AName (n : string).

(** The field classes of the module. *)
Inductive field_class : Type :=
  | BooleanField
  | EmailField
  | FloatField
  | IntegerField (min_val max_val : pyval)
  | StringField (max_len : pyval) (str_type : pyval)
  | Field
  | DateField
  | DateTimeField
  | IPAddressField
  | ListField
  | MACAddressField
  | OneToOneField (model : class_or_name)
  | OneToManyField (entity : class_or_name)
  | URLField.

(** A field: its class and the keyword options it was declared with
    (booby keeps them in [field.options]). *)
Record field : Type := {
  fclass : field_class;
  options : gmap string pyval
}.

(** The generators of the fauxfactory library and [random.random]. *)
Class FauxFactory : Type := {
  generate_boolean : rand -> result pyval;
  generate_email : rand -> result pyval;
  generate_integer : pyval -> pyval -> rand -> result pyval;
  generate_string : pyval -> pyval -> rand -> result pyval;
  generate_ipaddr : rand -> result pyval;
  generate_mac : rand -> result pyval;
  generate_url : rand -> result pyval;
  random_random : rand -> Q
}.

(** [FauxFactory.generate_choice]: a random element of a non-empty list or
    tuple; a one-character string of a non-empty string; [ValueError] on
    anything else. *)
Definition pick (l : list pyval) (r : rand) : result pyval :=
  match nth_error l (r 0%nat mod length l) with
  | Some v => Ok v
  | None => Raise ValueError
  end.

Definition generate_choice (choices : pyval) (r : rand) : result pyval :=
  match choices with
  | PList l | PTuple l => pick l r
  | PStr s => pick (map (fun c => PStr (String c EmptyString)) (list_ascii_of_string s)) r
  | _ => Raise ValueError
  end.

(** The second argument of [_get_value]: a callable or a plain value. *)
Inductive default_arg : Type :=
  | Callable (f : rand -> result pyval)
  | Plain (v : pyval).

Definition _get_value (fld : field) (default : default_arg) (r : rand)
  : result pyval :=
  match options fld !! "default" with
  | Some v => Ok v
  | None =>
      match options fld !! "choices" with
      | Some choices => generate_choice choices r
      | None =>
          match default with
          | Callable f => f r
          | Plain v => Ok v
          end
      end
  end.

(** booby and the module [robottelo.entities], both outside the modelled
    modules: the classes of [robottelo.entities] by name, the
    constructor of a model class (a call of the class with keyword
    arguments) and the subclass relation, from the name of a class to a
    class. *)
Class Booby : Type := {
  entities : gmap string EntityClass;
  construct : EntityClass -> gmap string pyval -> result pyval;
  issubclass : string -> EntityClass -> bool
}.

(** [isinstance(value, c)] for an entity class [c]. *)
Definition isinstance `{Booby} (value : pyval) (c : EntityClass) : bool :=
  match value with
  | PObj n _ => issubclass n c
  | _ => false
  end.

Definition _get_class `{Booby} (c : class_or_name) : result EntityClass :=
  match c with
  | AClass k => Ok k
  | AName n =>
      match entities !! n with
      | Some k => Ok k
      | None => Raise AttributeError
      end
  end.

(** [get_value] of each field class.  The arguments of [_get_value] are
    evaluated before the call, so [FloatField] and [IntegerField] draw their
    random value first; [StringField] passes a lambda.  [Field],
    [DateField], [DateTimeField] and [ListField] define no [get_value]. *)
Definition get_value `{FauxFactory} `{Booby} (fld : field) (r : rand)
  : result pyval :=
  match fclass fld with
  | BooleanField => _get_value fld (Callable generate_boolean) r
  | EmailField => _get_value fld (Callable generate_email) r
  | FloatField =>
      _get_value fld
        (Plain (PFloat (Qmult (random_random r) (inject_Z 10000))))
        (advance r)
  | IntegerField min_val max_val =>
      let! d := generate_integer min_val max_val r in
      _get_value fld (Plain d) (advance r)
  | StringField max_len str_type =>
      _get_value fld
        (Callable (fun r' =>
           let! t := generate_choice str_type r' in
           let! n := generate_integer (PInt 1) max_len (advance r') in
           generate_string t n (advance (advance r'))))
        r
  | IPAddressField => _get_value fld (Callable generate_ipaddr) r
  | MACAddressField => _get_value fld (Callable generate_mac) r
  | URLField => _get_value fld (Callable generate_url) r
  | OneToOneField model =>
      let! c := _get_class model in
      construct c ∅
  | OneToManyField entity =>
      let! c := _get_class entity in
      let! o := construct c ∅ in
      Ok (PList [o])
  | Field | DateField | DateTimeField | ListField => Raise AttributeError
  end.

(** The field classes whose [get_value] goes through [_get_value]. *)
Definition delegates_to_get_value (k : field_class) : bool :=
  match k with
  | BooleanField | EmailField | FloatField | IntegerField _ _
  | StringField _ _ | IPAddressField | MACAddressField | URLField => true
  | _ => false
  end.

(** An entity instance: its class and what [dict(self)] yields, the current
    value of every field, [None] for a field that holds no value. *)
Record Entity : Type := {
  cls : EntityClass;
  values : gmap string pyval
}.

(** [self.<name>] *)
Definition attr (self : Entity) (name : string) : pyval :=
  dict_get (values self) name.

(** [booby.fields.Field.__set__]: the value is stored as it is. *)
Definition Field__set__ (name : string) (instance : Entity) (value : pyval)
  : Entity :=
  {| cls := cls instance; values := <[name := value]> (values instance) |}.

(** [isinstance(value, self.entity)] and the call of [self.entity] in
    [OneToManyField.__set__], which use [self.entity] as it was declared:
    a name is a [str], neither a class nor callable. *)
Definition isinstance_entity `{Booby} (value : pyval) (entity : class_or_name)
  : result bool :=
  match entity with
  | AClass c => Ok (isinstance value c)
  | AName _ => Raise TypeError
  end.

Definition call_entity `{Booby} (entity : class_or_name)
    (kwargs : gmap string pyval) : result pyval :=
  match entity with
  | AClass c => construct c kwargs
  | AName _ => Raise TypeError
  end.

(** The loop over a mutable sequence: every dict becomes an instance. *)
Fixpoint convert_items `{Booby} (entity : class_or_name) (l : list pyval)
  : result (list pyval) :=
  match l with
  | [] => Ok []
  | val :: rest =>
      let! val' := match val with
              | PDict kwargs => call_entity entity kwargs
              | _ => Ok val
              end in
      let! rest' := convert_items entity rest in
      Ok (val' :: rest')
  end.

(** [OneToManyField.__set__] of the field called [name] whose target is
    [entity].  A dict is a [MutableMapping], a list a [MutableSequence]; a
    tuple is neither. *)
Definition OneToManyField__set__ `{Booby} (entity : class_or_name)
    (name : string) (instance : Entity) (value : pyval) : result Entity :=
  let! is_inst := isinstance_entity value entity in
  let! value' :=
    (if is_inst : bool then Ok (PList [value])
     else match value with
          | PDict kwargs =>
              let! o := call_entity entity kwargs in
              Ok (PList [o])
          | PList l =>
              let! l' := convert_items entity l in
              Ok (PList l')
          | _ => Ok value
          end) in
  Ok (Field__set__ name instance value').

(** [Entity.path]; [get_server_url] comes from [robottelo.common.helpers]. *)
Definition path `{Platform} (get_server_url : string) (self : Entity)
    (which : pyval) : result string :=
  let base := urljoin (get_server_url ++ "/") (Meta_api_path (cls self)) in
  if str_eq which "all" || (is_none which && is_none (attr self "id")) then
    Ok base
  else if negb (is_none (attr self "id"))
          && (is_none which || str_eq which "this") then
    Ok (urljoin (base ++ "/") (py_str (attr self "id")))
  else Raise NoSuchPathError.

(** The path to all entities of the class of [self]. *)
Definition collection_path `{Platform} (get_server_url : string)
    (self : Entity) : string :=
  urljoin (get_server_url ++ "/") (Meta_api_path (cls self)).

(** The path to [self]: the [str] of its id joined to the collection path
    followed by a slash. *)
Definition item_path `{Platform} (get_server_url : string) (self : Entity)
  : string :=
  urljoin (collection_path get_server_url self ++ "/")
          (py_str (attr self "id")).

(** [Entity.get_values]: the loop runs over a copy of the items
    ([fields.items()] is a list in Python 2) and pops from [fields]. *)
Definition get_values (self : Entity) : gmap string pyval :=
  let fields := values self in
  foldl (fun acc kv => if is_none kv.2 then delete kv.1 acc else acc)
        fields (map_to_list fields).

(** The value a field class generates when neither a default nor choices
    are declared: the outcome of the default argument its [get_value] hands
    to [_get_value]. *)
Definition random_value `{FauxFactory} (k : field_class) (r : rand)
  : result pyval :=
  match k with
  | BooleanField => generate_boolean r
  | EmailField => generate_email r
  | FloatField => Ok (PFloat (Qmult (random_random r) (inject_Z 10000)))
  | IntegerField min_val max_val => generate_integer min_val max_val r
  | StringField max_len str_type =>
      let! t := generate_choice str_type r in
      let! n := generate_integer (PInt 1) max_len (advance r) in
      generate_string t n (advance (advance r))
  | IPAddressField => generate_ipaddr r
  | MACAddressField => generate_mac r
  | URLField => generate_url r
  | _ => Raise AttributeError
  end.

(** The random value [FloatField] and [IntegerField] compute before they
    call [_get_value] was computed without raising. *)
Definition eager_draw_returns `{FauxFactory} (k : field_class) (r : rand)
  : Prop :=
  match k with
  | IntegerField min_val max_val =>
      exists d, generate_integer min_val max_val r = Ok d
  | _ => True
  end.

(** A choice set: the elements of a list or a tuple of choices. *)
Definition choice_set (choices : pyval) : option (list pyval) :=
  match choices with
  | PList l | PTuple l => Some l
  | _ => None
  end.

(** An item a one-to-many field of target [c] converts: an instance of [c],
    or a dict from which booby constructs one. *)
Definition convertible `{Booby} (c : EntityClass) (x : pyval) : Prop :=
  isinstance x c = true
  \/ exists kwargs o, x = PDict kwargs /\ construct c kwargs = Ok o.

(** The three shapes of value a one-to-many field of target [c] is assigned:
    one instance, one dict, a list of instances and dicts. *)
Definition one_to_many_shape `{Booby} (c : EntityClass) (value : pyval)
  : Prop :=
  isinstance value c = true
  \/ (exists kwargs o, value = PDict kwargs /\ construct c kwargs = Ok o)
  \/ (exists l, value = PList l /\ Forall (convertible c) l).

(** [x'] is what the assignment keeps for the item [x]: [x] itself when it is
    an instance, the instance constructed from it when it is a dict. *)
Definition item_normalized `{Booby} (c : EntityClass) (x x' : pyval) : Prop :=
  (isinstance x c = true /\ x' = x)
  \/ exists kwargs, x = PDict kwargs /\ construct c kwargs = Ok x'.

(** [v] is a list all of whose elements are instances of [c]. *)
Definition list_of_instances `{Booby} (c : EntityClass) (v : pyval) : Prop :=
  exists l, v = PList l /\ Forall (fun x => isinstance x c = true) l.

End Orm.

(* ===================================================================== *)
(** ** robottelo/cli/factory.py *)
(* ===================================================================== *)

Module Factory.

(** What a creation call does to the outside world, in the order it does
    it: the backend's [create] is run, the process sleeps, a line goes to
    the debug log. *)
Inductive event : Type :=
  | Created (cli_object : string) (args : gmap string pyval)
  | Slept (seconds : Z)
  | Logged (msg : string).

(** A computation that may raise and that extends the trace of events.  The
    trace is kept when the computation raises. *)
Definition M (A : Type) : Type := list event -> result A * list event.

Definition ret {A : Type} (a : A) : M A := fun t => (Ok a, t).
Definition raise {A : Type} (e : exn) : M A := fun t => (Raise e, t).
Definition lift {A : Type} (r : result A) : M A := fun t => (r, t).
Definition emit (ev : event) : M unit := fun t => (Ok tt, (t ++ [ev])%list).
Definition mbind {A B : Type} (m : M A) (k : A -> M B) : M B :=
  fun t =>
    match m t with
    | (Ok a, t') => k a t'
    | (Raise e, t') => (Raise e, t')
    end.
Definition run {A : Type} (m : M A) : result A * list event := m [].

Notation "'do!' x ':=' m 'in' k" := (mbind m (fun x => k))
  (at level 10, x name, m at level 100, k at level 200).
Notation "'do!' '_' ':=' m 'in' k" := (mbind m (fun _ => k))
  (at level 10, m at level 100, k at level 200).

(** The result object of a hammer command. *)
Record CliResult : Type := {
  return_code : Z;
  stdout : pyval;
  stderr : string
}.

(** A class of [robottelo.cli]: its [__name__] and the answer of the remote
    system to [create(args)]. *)
Record CliObject : Type := {
  __name__ : string;
  create : gmap string pyval -> CliResult
}.

(** The classes of [robottelo.cli] the modelled factories use. *)
Class CliObjects : Type := {
  ActivationKey : CliObject;
  Org : CliObject
}.

(** [robottelo.common.helpers], of which only the imports are known:
    [generate_name], with its positional arguments, and
    [update_dictionary]. *)
Class Helpers : Type := {
  generate_name : list pyval -> rand -> string;
  update_dictionary :
    gmap string pyval -> option (gmap string pyval) -> gmap string pyval
}.

(** Modelled from the spec: [generate_name] of [robottelo.common.helpers],
    whose code is not available, "synthesizes a non-empty
    name". *)
Definition generate_name_nonempty `{Helpers} : Prop :=
  forall positional r, generate_name positional r <> "".

(** Modelled from the spec: [update_dictionary] of
    [robottelo.common.helpers], whose code is not available,
    overlays the values the caller supplies on the defaults; a key the caller
    does not supply keeps its default. *)
Definition update_dictionary_keeps `{Helpers} : Prop :=
  forall (d : gmap string pyval) (options : option (gmap string pyval))
         (k : string),
    (forall o, options = Some o -> o !! k = None) ->
    update_dictionary d options !! k = d !! k.

(** Modelled from the spec: [sleep_for_seconds] of
    [robottelo.common.helpers], whose code is not available:
    a pause of the given fixed length, recorded in the trace. *)
Definition sleep_for_seconds (seconds : Z) : M unit := emit (Slept seconds).

(** [logger.debug] *)
Definition logger_debug (msg : string) : M unit := emit (Logged msg).

(** [cli_object.create(args)] *)
Definition call_create (cli_object : CliObject) (args : gmap string pyval)
  : M CliResult :=
  do! _ := emit (Created (__name__ cli_object) args) in
  ret (create cli_object args).

Definition ORG_KEYS : list string :=
  ["organization"; "organization-id"; "organization-label"].

Definition _format_error_msg (msg : string) : string :=
  join newline (map (fun line => "  " ++ line) (split_lines msg)).

(** The text of the [CLIFactoryError] of [create_object]:
    ['Failed to create %s with %r data due to:\n%s']. *)
Definition failure_message `{Platform} (name : string)
    (args : gmap string pyval) (diagnostic : string) : string :=
  "Failed to create " ++ name ++ " with " ++ py_repr (PDict args)
    ++ " data due to:" ++ newline ++ _format_error_msg diagnostic.

(** The unwrapping at the end of [create_object]. *)
Definition unwrap (out : pyval) : pyval :=
  match out with
  | PList (first :: _) => first
  | _ => out
  end.

Definition create_object `{Platform} (cli_object : CliObject)
    (args : gmap string pyval) : M pyval :=
  do! result := call_create cli_object args in
  do! _ := sleep_for_seconds 5 in
  if negb (return_code result =? 0)%Z then
    do! _ := logger_debug (stderr result) in
    raise (CLIFactoryError
             (failure_message (__name__ cli_object) args (stderr result)))
  else
    ret (unwrap (stdout result)).

(** [options.get(key, None)] on the [options] argument of a factory. *)
Definition option_get (options : gmap string pyval) (key : string) : pyval :=
  dict_get options key.

(** The guard at the head of [make_activation_key]. *)
Definition organization_missing (options : option (gmap string pyval)) : bool :=
  match options with
  | None => true
  | Some o =>
      negb (truthy (PDict o))
      || (negb (truthy (option_get o "organization"))
          && negb (truthy (option_get o "organization-label"))
          && negb (truthy (option_get o "organization-id")))
  end.

Definition activation_key_defaults (name : string) : gmap string pyval :=
  list_to_map
    [("content-view", PNone);
     ("content-view-id", PNone);
     ("description", PNone);
     ("lifecycle-environment", PNone);
     ("lifecycle-environment-id", PNone);
     ("max-content-hosts", PNone);
     ("name", PStr name);
     ("organization", PNone);
     ("organization-id", PNone);
     ("organization-label", PNone);
     ("unlimited-content-hosts", PBool true)].

Definition make_activation_key `{Platform} `{Helpers} `{CliObjects}
    (options : option (gmap string pyval)) (r : rand)
  : M (gmap string pyval) :=
  if organization_missing options then
    raise (CLIFactoryError "Please provide a valid Organization.")
  else
    let args := activation_key_defaults (generate_name [] r) in
    let args := update_dictionary args options in
    do! created := create_object ActivationKey args in
    do! args := lift (dict_update args created) in
    ret args.

Definition org_defaults (name : string) : gmap string pyval :=
  list_to_map
    [("name", PStr name);
     ("label", PNone);
     ("description", PNone)].

Definition make_org `{Platform} `{Helpers} `{CliObjects}
    (options : option (gmap string pyval)) (r : rand)
  : M (gmap string pyval) :=
  let args := org_defaults (generate_name [PInt 6] r) in
  let args := update_dictionary args options in
  do! created := create_object Org args in
  do! args := lift (dict_update args created) in
  ret args.

End Factory.

(* ===================================================================== *)
(** ** Concrete stand-ins for the libraries and the remote system *)
(* ===================================================================== *)

Module Samples.
Import Orm Factory.

Definition sample_str (v : pyval) : string :=
  match v with
  | PStr s => s
  | PInt z => if (z =? 7)%Z then "7" else "int"
  | PNone => "None"
  | _ => "object"
  end.

#[export] Instance sample_platform : Platform := {|
  urljoin := fun base url => base ++ url;
  py_str := sample_str;
  py_repr := fun v => "<" ++ sample_str v ++ ">";
  dict_update_iterable := fun _ _ => Raise TypeError
|}.

#[export] Instance sample_fauxfactory : FauxFactory := {|
  generate_boolean := fun r => Ok (PBool (Nat.even (r 0%nat)));
  generate_email := fun _ => Ok (PStr "a@example.com");
  generate_integer := fun lo hi r =>
    match lo, hi with
    | PInt a, PInt b =>
        if (a <=? b)%Z then Ok (PInt (a + Z.of_nat (r 0%nat) mod (b - a + 1)))
        else Raise ValueError
    | _, _ => Ok (PInt (Z.of_nat (r 0%nat)))
    end;
  generate_string := fun _ _ _ => Ok (PStr "abc");
  generate_ipaddr := fun _ => Ok (PStr "10.0.0.1");
  generate_mac := fun _ => Ok (PStr "00:11:22:33:44:55");
  generate_url := fun _ => Ok (PStr "http://example.com");
  random_random := fun _ => inject_Z 0
|}.

Definition PetEntity : EntityClass :=
  {| cls_name := "PetEntity"; Meta_api_path := "api/pets" |}.
Definition OwnerEntity : EntityClass :=
  {| cls_name := "OwnerEntity"; Meta_api_path := "api/owners" |}.

#[export] Instance sample_booby : Booby := {|
  entities := list_to_map [("PetEntity", PetEntity); ("OwnerEntity", OwnerEntity)];
  construct := fun c kwargs => Ok (PObj (cls_name c) kwargs);
  issubclass := fun n c => String.eqb n (cls_name c)
|}.

Definition tape : rand := fun i => i.

Definition level_field : field :=
  {| fclass := IntegerField (PInt 1) (PInt 5);
     options := <["default" := PInt 3]> {["choices" := PList [PInt 1; PInt 2]]} |}.

Definition colour_field : field :=
  {| fclass := StringField (PInt 30) (PTuple [PStr "utf8"]);
     options := {["choices" := PTuple [PStr "red"; PStr "green"]]} |}.

Definition pets_field : field :=
  {| fclass := OneToManyField (AClass PetEntity);
     options := {["default" := PList []]} |}.

Definition owner : Entity := {| cls := OwnerEntity; values := ∅ |}.
Definition owner7 : Entity :=
  {| cls := OwnerEntity; values := {["id" := PInt 7]} |}.

#[export] Instance sample_helpers : Helpers := {|
  generate_name := fun _ r => String (ascii_of_nat (97 + r 0%nat mod 26)) "name";
  update_dictionary := fun d o =>
    match o with
    | Some u => u ∪ d
    | None => d
    end
|}.

Definition accept (name : string) : CliObject :=
  {| __name__ := name;
     create := fun args =>
       {| return_code := 0;
          stdout := PList [PDict (<["id" := PInt 1]> args)];
          stderr := "" |} |}.

Definition reject (name : string) : CliObject :=
  {| __name__ := name;
     create := fun _ =>
       {| return_code := 70;
          stdout := PList [];
          stderr := "Could not create:" ++ newline ++ "Name is taken" |} |}.

#[export] Instance sample_cli : CliObjects := {|
  ActivationKey := accept "ActivationKey";
  Org := accept "Org"
|}.

End Samples.

(* ===================================================================== *)
(** ** robottelo/cli/factory.py: further factories *)
(* ===================================================================== *)

Module FactoryMore.
Import Factory.

(** The other generators of [robottelo.common.helpers] the factories call:
    [generate_string(str_type, length)], [generate_ipaddr()] and
    [generate_mac()]. *)
Class Generators : Type := {
  generate_string : string -> Z -> rand -> string;
  generate_ipaddr : rand -> string;
  generate_mac : rand -> string
}.

(** [FOREMAN_PROVIDERS['libvirt']] of [robottelo.common.constants]. *)
Class Constants : Type := {
  FOREMAN_PROVIDERS_libvirt : pyval
}.

(** More classes of [robottelo.cli]. *)
Class MoreCliObjects : Type := {
  ContentView : CliObject;
  Repository : CliObject;
  ContentHost : CliObject;
  Host : CliObject;
  ComputeResource : CliObject
}.

Definition CONTENT_VIEW_KEYS : list string :=
  ["content-view"; "content-view-id"].

Definition LIFECYCLE_KEYS : list string :=
  ["lifecycle-environment"; "lifecycle-environment-id"].

(** [any(options.get(key) for key in keys)] *)
Definition any_key (options : gmap string pyval) (keys : list string) : bool :=
  existsb (fun key => truthy (option_get options key)) keys.

Definition content_view_defaults (name : string) : gmap string pyval :=
  list_to_map
    [("name", PStr name);
     ("organization-id", PNone);
     ("composite", PBool false);
     ("component-ids", PNone);
     ("label", PNone);
     ("description", PNone);
     ("repository-ids", PNone)].

Definition make_content_view `{Platform} `{Helpers} `{Generators}
    `{MoreCliObjects} (options : option (gmap string pyval)) (r : rand)
  : M (gmap string pyval) :=
  if match options with
     | None => true
     | Some o => negb (truthy (PDict o))
                 || negb (truthy (option_get o "organization-id"))
     end
  then raise (CLIFactoryError "Please provide a valid ORG ID.")
  else
    let args := content_view_defaults (generate_string "alpha" 10 r) in
    let args := update_dictionary args options in
    do! created := create_object ContentView args in
    do! args := lift (dict_update args created) in
    ret args.

Definition repository_defaults (name : string) : gmap string pyval :=
  list_to_map
    [("name", PStr name);
     ("label", PNone);
     ("content-type", PStr "yum");
     ("product", PNone);
     ("product-id", PNone);
     ("publish-via-http", PStr "true");
     ("url", PStr "http://omaciel.fedorapeople.org/fakerepo01/");
     ("gpg-key", PNone);
     ("gpg-key-id", PNone);
     ("organization", PNone);
     ("organization-id", PNone);
     ("organization-label", PNone)].

Definition make_repository `{Platform} `{Helpers} `{Generators}
    `{MoreCliObjects} (options : option (gmap string pyval)) (r : rand)
  : M (gmap string pyval) :=
  if match options with
     | None => true
     | Some o => negb (truthy (PDict o))
                 || negb (truthy (option_get o "product-id"))
     end
  then raise (CLIFactoryError "Please provide a valid Product ID.")
  else
    let args := repository_defaults (generate_string "alpha" 15 r) in
    let args := update_dictionary args options in
    do! created := create_object Repository args in
    do! args := lift (dict_update args created) in
    ret args.

Definition content_host_defaults (name description : string)
  : gmap string pyval :=
  list_to_map
    [("name", PStr name);
     ("description", PStr description);
     ("organization", PNone);
     ("organization-id", PNone);
     ("organization-label", PNone);
     ("content-view", PNone);
     ("content-view-id", PNone);
     ("environment", PNone);
     ("environment-id", PNone);
     ("guest-ids", PNone);
     ("host-collection", PNone);
     ("host-collection-id", PNone);
     ("last-checking", PNone);
     ("location", PNone);
     ("release-ver", PNone);
     ("service-level", PNone)].

(** ['Please provide one of {0}.'.format(', '.join(keys))] *)
Definition provide_one_of (keys : list string) : string :=
  "Please provide one of " ++ join ", " keys ++ ".".

Definition make_content_host `{Platform} `{Helpers} `{Generators}
    `{MoreCliObjects} (options : option (gmap string pyval)) (r : rand)
  : M (gmap string pyval) :=
  match options with
  | None => raise (CLIFactoryError "Please provide required parameters")
  | Some o =>
      if negb (truthy (PDict o)) then
        raise (CLIFactoryError "Please provide required parameters")
      else if negb (any_key o ORG_KEYS) then
        raise (CLIFactoryError "Please provide a valid organization field.")
      else if negb (any_key o CONTENT_VIEW_KEYS) then
        raise (CLIFactoryError (provide_one_of CONTENT_VIEW_KEYS))
      else if negb (any_key o LIFECYCLE_KEYS) then
        raise (CLIFactoryError (provide_one_of LIFECYCLE_KEYS))
      else
        let args :=
          content_host_defaults (generate_string "alpha" 20 r)
                                (generate_string "alpha" 20 (advance r)) in
        let args := update_dictionary args options in
        do! created := create_object ContentHost args in
        do! args := lift (dict_update args created) in
        ret args
  end.

Definition required_options : list string :=
  ["architecture-id";
   "domain-id";
   "environment-id";
   "medium-id";
   "operatingsystem-id";
   "partition-table-id";
   "puppet-proxy-id"].

(** ['Options {0} are required'.format(', '.join(names))] *)
Definition options_are_required (names : list string) : string :=
  "Options " ++ join ", " names ++ " are required".

(** [[option for option in required_options if options.get(option) is None]] *)
Definition missing_options (options : gmap string pyval) : list string :=
  List.filter (fun option => is_none (option_get options option))
              required_options.

Definition host_defaults (ip mac name root_password : string)
  : gmap string pyval :=
  list_to_map
    [("architecture", PNone);
     ("architecture-id", PNone);
     ("ask-root-password", PNone);
     ("build", PNone);
     ("compute-attributes", PNone);
     ("compute-profile", PNone);
     ("compute-profile-id", PNone);
     ("compute-resource", PNone);
     ("compute-resource-id", PNone);
     ("domain", PNone);
     ("domain-id", PNone);
     ("enabled", PNone);
     ("environment", PNone);
     ("environment-id", PNone);
     ("hostgroup", PNone);
     ("hostgroup-id", PNone);
     ("image-id", PNone);
     ("interface", PNone);
     ("ip", PStr ip);
     ("location", PNone);
     ("location-id", PNone);
     ("mac", PStr mac);
     ("managed", PNone);
     ("medium", PNone);
     ("medium-id", PNone);
     ("model", PNone);
     ("model-id", PNone);
     ("name", PStr name);
     ("operatingsystem-id", PNone);
     ("organization", PNone);
     ("organization-id", PNone);
     ("owner-id", PNone);
     ("parameters", PNone);
     ("partition-table-id", PNone);
     ("progress-report-id", PNone);
     ("provision-method", PNone);
     ("ptable", PNone);
     ("ptable-id", PNone);
     ("puppet-ca-proxy-id", PNone);
     ("puppet-proxy-id", PNone);
     ("puppetclass-ids", PNone);
     ("realm", PNone);
     ("realm-id", PNone);
     ("root-password", PStr root_password);
     ("sp-subnet-id", PNone);
     ("subnet", PNone);
     ("subnet-id", PNone);
     ("volume", PNone)].

Definition make_host `{Platform} `{Helpers} `{Generators} `{MoreCliObjects}
    (options : option (gmap string pyval)) (r : rand)
  : M (gmap string pyval) :=
  match options with
  | None => raise (CLIFactoryError (options_are_required required_options))
  | Some o =>
      if negb (Nat.eqb (length (missing_options o)) 0) then
        raise (CLIFactoryError (options_are_required (missing_options o)))
      else
        let args :=
          host_defaults (generate_ipaddr r)
                        (generate_mac (advance r))
                        (generate_string "alpha" 10 (advance (advance r)))
                        (generate_string "alpha" 8
                           (advance (advance (advance r)))) in
        let args := update_dictionary args options in
        do! created := create_object Host args in
        do! args := lift (dict_update args created) in
        ret args
  end.

Definition compute_resource_defaults (name : string) : gmap string pyval :=
  list_to_map
    [("name", PStr name);
     ("provider", PNone);
     ("url", PNone);
     ("description", PNone);
     ("user", PNone);
     ("password", PNone);
     ("uuid", PNone);
     ("region", PNone);
     ("tenant", PNone);
     ("server", PNone)].

(** A value, or the [KeyError] of a subscript on a dict without the key. *)
Inductive keyed (A : Type) : Type :=
  | Present (a : A)
  | KeyError (key : string).
Arguments Present {A} a.
Arguments KeyError {A} key.

(** The block of [make_compute_resource] between [update_dictionary] and
    [create_object]: a provider that is [None] becomes libvirt and, only
    then, a url that is [None] becomes the local qemu url. *)
Definition provider_defaults `{Constants} (args : gmap string pyval)
  : keyed (gmap string pyval) :=
  match args !! "provider" with
  | None => KeyError "provider"
  | Some provider =>
      if is_none provider then
        let args := <["provider" := FOREMAN_PROVIDERS_libvirt]> args in
        match args !! "url" with
        | None => KeyError "url"
        | Some url =>
            if is_none url then
              Present (<["url" := PStr "qemu+tcp://localhost:16509/system"]> args)
            else Present args
        end
      else Present args
  end.

(** [make_compute_resource]: a [KeyError] is raised before anything is
    submitted; otherwise the creation goes on with the completed
    arguments. *)
Definition make_compute_resource `{Platform} `{Helpers} `{Constants}
    `{MoreCliObjects} (options : option (gmap string pyval)) (r : rand)
  : keyed (M (gmap string pyval)) :=
  let args := compute_resource_defaults (generate_name [PInt 8; PInt 8] r) in
  let args := update_dictionary args options in
  match provider_defaults args with
  | KeyError key => KeyError key
  | Present args =>
      Present (do! created := create_object ComputeResource args in
               do! args := lift (dict_update args created) in
               ret args)
  end.

End FactoryMore.

(* ===================================================================== *)
(** ** scripts/graph_entities.py *)
(* ===================================================================== *)

Module GraphEntities.
Import Orm.

(** A class of [robottelo.entities] as the script sees it: its fields, in
    the order [get_fields().items()] yields them, and whether it is a
    subclass of [factory.Factory]. *)
Record entity_decl : Type := {
  decl_fields : list (string * field);
  is_factory : bool
}.

(** [str.format] of a dependency: a name as it is, a class through the
    [str] of the class. *)
Class ClassFormat : Type := {
  class_str : EntityClass -> string
}.

Definition format_dependency `{ClassFormat} (dependency : class_or_name)
  : string :=
  match dependency with
  | AName n => n
  | AClass c => class_str c
  end.

Definition dquote : string := String (ascii_of_nat 34) EmptyString.

(** [field.options.get('required', False)] as a condition *)
Definition is_required (fld : field) : bool :=
  match options fld !! "required" with
  | Some v => truthy v
  | None => false
  end.

(** The line printed for a relationship field. *)
Definition edge_line `{ClassFormat} (entity_name : string)
    (dependency : class_or_name) (field_name : string) (fld : field)
  : string :=
  entity_name ++ " -> " ++ format_dependency dependency
    ++ " [label=" ++ dquote ++ field_name ++ dquote
    ++ (if is_required fld then " color=red" else "") ++ "]".

(** What the inner loop prints for one field. *)
Definition field_lines `{ClassFormat} (entity_name : string)
    (named : string * field) : list string :=
  match fclass named.2 with
  | OneToOneField model => [edge_line entity_name model named.1 named.2]
  | OneToManyField entity => [edge_line entity_name entity named.1 named.2]
  | _ => []
  end.

(** What the outer loop prints for one entity. *)
Definition entity_lines `{ClassFormat} (named : string * entity_decl)
  : list string :=
  (concat (map (field_lines named.1) (decl_fields named.2))
     ++ (if is_factory named.2 then []
         else [(named.1 ++ " [style=dotted]")%string]))%list.

(** The lines the script prints for the entities, in the order the dict of
    entities yields them. *)
Definition graph (entities_ : list (string * entity_decl)) `{ClassFormat}
  : list string :=
  ("digraph dependencies {" :: concat (map entity_lines entities_)
     ++ ["}"])%list.

(** The relationship fields of a list of fields. *)
Definition is_relationship (fld : field) : bool :=
  match fclass fld with
  | OneToOneField _ | OneToManyField _ => true
  | _ => false
  end.

End GraphEntities.

Module MoreSamples.
Import Orm Factory FactoryMore Samples.

(** A booby that refuses the keyword [colour]. *)
Definition strict_booby : Booby := {|
  entities := list_to_map [("PetEntity", PetEntity)];
  construct := fun c kwargs =>
    match kwargs !! "colour" with
    | Some _ => Raise AttributeError
    | None => Ok (PObj (cls_name c) kwargs)
    end;
  issubclass := fun n c => String.eqb n (cls_name c)
|}.

#[export] Instance sample_generators : Generators := {|
  generate_string := fun _ _ _ => "abcde";
  generate_ipaddr := fun _ => "10.0.0.1";
  generate_mac := fun _ => "00:11:22:33:44:55"
|}.

#[export] Instance sample_constants : Constants := {|
  FOREMAN_PROVIDERS_libvirt := PStr "Libvirt"
|}.

#[export] Instance sample_more_cli : MoreCliObjects := {|
  ContentView := accept "ContentView";
  Repository := accept "Repository";
  ContentHost := accept "ContentHost";
  Host := accept "Host";
  ComputeResource := accept "ComputeResource"
|}.

Definition host_options : gmap string pyval :=
  list_to_map
    [("architecture-id", PInt 1);
     ("domain-id", PInt 1);
     ("environment-id", PInt 1);
     ("medium-id", PInt 1);
     ("operatingsystem-id", PInt 1);
     ("partition-table-id", PInt 0);
     ("puppet-proxy-id", PStr "")].

Definition content_host_options : gmap string pyval :=
  list_to_map
    [("organization-id", PInt 1);
     ("content-view-id", PInt 2);
     ("lifecycle-environment-id", PInt 3)].

End MoreSamples.

(* ===================================================================== *)
(** ** Properties of robottelo/orm.py *)
(* ===================================================================== *)

Module OrmSpec.
Import Orm.

Section Path.
Context `{Platform}.
Variable get_server_url : string.

(** C1. [Entity.path]: with no selector and no id it is the collection
    path; with no selector and an id it is the item path; ['this'] without
    an id raises [NoSuchPathError]; ['all'] is always the collection
    path. *)
Theorem path_resolution (self : Entity) :
  (attr self "id" = PNone ->
     path get_server_url self PNone
       = Ok (collection_path get_server_url self)) /\
  (attr self "id" <> PNone ->
     path get_server_url self PNone = Ok (item_path get_server_url self)) /\
  (attr self "id" = PNone ->
     path get_server_url self (PStr "this") = Raise NoSuchPathError) /\
  path get_server_url self (PStr "all")
    = Ok (collection_path get_server_url self).
Proof.
  unfold path, collection_path, item_path.
  repeat split.
  - intros ->. reflexivity.
  - intros Hid. destruct (attr self "id"); try reflexivity. congruence.
  - intros ->. reflexivity.
Qed.

End Path.

Section PathWitness.
Import Samples.

Lemma path_resolution_witness :
  path "https://sat.example.com" owner PNone
    = Ok "https://sat.example.com/api/owners" /\
  path "https://sat.example.com" owner7 PNone
    = Ok "https://sat.example.com/api/owners/7" /\
  path "https://sat.example.com" owner (PStr "this")
    = Raise NoSuchPathError.
Proof.
  pose proof (path_resolution "https://sat.example.com" owner)
    as (Hc & _ & Ht & _).
  pose proof (path_resolution "https://sat.example.com" owner7)
    as (_ & Hi & _ & _).
  split; [apply Hc; reflexivity |].
  split; [apply Hi; discriminate | apply Ht; reflexivity].
Defined.

End PathWitness.

Section Synthesis.
Context `{FauxFactory} `{Booby}.

Lemma pick_elem (l : list pyval) (r : rand) (v : pyval) :
  pick l r = Ok v -> In v l.
Proof.
  unfold pick. destruct (nth_error l _) as [x|] eqn:Hnth; [|discriminate].
  intros [= <-]. eapply nth_error_In. exact Hnth.
Qed.

Lemma pick_total (l : list pyval) (r : rand) :
  l <> [] -> exists v, pick l r = Ok v.
Proof.
  intros Hne. unfold pick.
  destruct (nth_error l _) as [x|] eqn:Hnth; [eauto |].
  apply nth_error_None in Hnth.
  assert (0 < length l)%nat by (destruct l; [congruence | simpl; lia]).
  pose proof (Nat.mod_upper_bound (r 0%nat) (length l)). lia.
Qed.

Lemma generate_choice_elem (choices : pyval) (set : list pyval) (r : rand)
    (v : pyval) :
  choice_set choices = Some set -> generate_choice choices r = Ok v -> In v set.
Proof.
  destruct choices; simpl; try discriminate; intros [= <-]; apply pick_elem.
Qed.

Lemma generate_choice_total (choices : pyval) (set : list pyval) (r : rand) :
  choice_set choices = Some set -> set <> [] ->
  exists v, generate_choice choices r = Ok v.
Proof.
  destruct choices; simpl; try discriminate; intros [= <-]; apply pick_total.
Qed.

(** What [_get_value] returns, by the options of the field. *)
Lemma _get_value_default (fld : field) (default : default_arg) (r : rand)
    (d : pyval) :
  options fld !! "default" = Some d -> _get_value fld default r = Ok d.
Proof. unfold _get_value. intros ->. reflexivity. Qed.

Lemma _get_value_choices (fld : field) (default : default_arg) (r : rand)
    (choices : pyval) :
  options fld !! "default" = None -> options fld !! "choices" = Some choices ->
  _get_value fld default r = generate_choice choices r.
Proof. unfold _get_value. intros -> ->. reflexivity. Qed.

Lemma _get_value_fallback (fld : field) (default : default_arg) (r : rand) :
  options fld !! "default" = None -> options fld !! "choices" = None ->
  _get_value fld default r
    = match default with Callable f => f r | Plain v => Ok v end.
Proof. unfold _get_value. intros -> ->. reflexivity. Qed.

(** Every field class that delegates calls [_get_value] on the field itself,
    once the value it computes beforehand is there. *)
Lemma get_value_delegates (fld : field) (r : rand) :
  delegates_to_get_value (fclass fld) = true ->
  eager_draw_returns (fclass fld) r ->
  exists default r', get_value fld r = _get_value fld default r'.
Proof.
  unfold get_value. destruct (fclass fld); simpl; try discriminate;
    intros _ Hdraw; eauto.
  destruct Hdraw as [d ->]. simpl. eauto.
Qed.

(** C2, as amended. The field classes whose [get_value] goes through
    [_get_value] (boolean, email, float, integer, string, IP address, MAC
    address, URL) return a declared default as it is, whatever the choices;
    without a default they return an element of the declared choices (and do
    return one when the choices are not empty); with neither they return the
    random value of their class. The relationship fields do not look at their
    options. *)
Theorem get_value_precedence (fld : field) (r : rand) :
  (delegates_to_get_value (fclass fld) = true ->
   eager_draw_returns (fclass fld) r ->
     (forall d, options fld !! "default" = Some d -> get_value fld r = Ok d) /\
     (forall choices set,
        options fld !! "default" = None ->
        options fld !! "choices" = Some choices ->
        choice_set choices = Some set ->
        (forall v, get_value fld r = Ok v -> In v set) /\
        (set <> [] -> exists v, get_value fld r = Ok v /\ In v set)) /\
     (options fld !! "default" = None ->
      options fld !! "choices" = None ->
      get_value fld r = random_value (fclass fld) r)) /\
  (forall target,
     fclass fld = OneToOneField target \/ fclass fld = OneToManyField target ->
     get_value fld r = get_value {| fclass := fclass fld; options := ∅ |} r).
Proof.
  split.
  - intros Hdel Hdraw.
    destruct (get_value_delegates fld r Hdel Hdraw) as (default & r' & Hgv).
    split; [| split].
    + intros d Hd. rewrite Hgv. by apply _get_value_default.
    + intros choices set Hd Hc Hset.
      rewrite Hgv, (_get_value_choices _ _ _ choices) by assumption.
      split.
      * intros v. by apply generate_choice_elem.
      * intros Hne.
        destruct (generate_choice_total choices set r' Hset Hne) as [v Hv].
        exists v. split; [exact Hv |]. by eapply generate_choice_elem.
    + intros Hd Hc. clear Hgv.
      unfold get_value, random_value.
      destruct (fclass fld); simpl in *; try discriminate;
        rewrite ?_get_value_fallback by assumption; try reflexivity.
      destruct Hdraw as [d ->]. simpl.
      by rewrite _get_value_fallback.
  - intros target [Hk | Hk]; unfold get_value; simpl; rewrite Hk; reflexivity.
Qed.

End Synthesis.

Section SynthesisWitness.
Import Samples.

Lemma get_value_precedence_witness :
  get_value level_field tape = Ok (PInt 3) /\
  (exists v, get_value colour_field tape = Ok v
             /\ In v [PStr "red"; PStr "green"]) /\
  get_value pets_field tape
    = get_value {| fclass := fclass pets_field; options := ∅ |} tape.
Proof.
  destruct (get_value_precedence level_field tape) as [Hlevel _].
  destruct (get_value_precedence colour_field tape) as [Hcolour _].
  destruct (get_value_precedence pets_field tape) as [_ Hpets].
  split; [| split].
  - apply Hlevel; [reflexivity | vm_compute; eauto | reflexivity].
  - destruct (Hcolour eq_refl I) as (_ & Hc & _).
    apply (Hc (PTuple [PStr "red"; PStr "green"]));
      [reflexivity | reflexivity | reflexivity | discriminate].
  - apply (Hpets (AClass PetEntity)). right. reflexivity.
Defined.

(** C2, as stated, fails on a relationship field: a one-to-many field that
    declares the default [[]] synthesizes a list with a fresh instance. *)
Lemma get_value_default_not_returned :
  options pets_field !! "default" = Some (PList []) /\
  get_value pets_field tape = Ok (PList [PObj "PetEntity" ∅]) /\
  get_value pets_field tape <> Ok (PList []).
Proof.
  split; [reflexivity |]. split; [reflexivity | discriminate].
Qed.

End SynthesisWitness.

Section OneToMany.
Context `{Booby}.

(** booby's constructor returns an instance of the class that was called. *)
Hypothesis construct_instance :
  forall c kwargs o, construct c kwargs = Ok o -> isinstance o c = true.

Lemma attr_Field__set__ (name : string) (instance : Entity) (value : pyval) :
  attr (Field__set__ name instance value) name = value.
Proof. unfold attr, dict_get, Field__set__. simpl. by rewrite lookup_insert_eq. Qed.

Lemma item_normalized_instance (c : EntityClass) (x x' : pyval) :
  item_normalized c x x' -> isinstance x' c = true.
Proof.
  intros [[Hx ->] | (kwargs & _ & Hc)]; [exact Hx | eauto].
Qed.

Lemma convert_items_normalizes (c : EntityClass) (l : list pyval) :
  Forall (convertible c) l ->
  exists l', convert_items (AClass c) l = Ok l'
             /\ Forall2 (item_normalized c) l l'.
Proof.
  induction 1 as [| x l Hx _ (l' & Hl' & Hrel)]; simpl.
  - exists []. split; [reflexivity | constructor].
  - destruct Hx as [Hx | (kwargs & o & -> & Hc)].
    + exists (x :: l'). rewrite Hl'. split.
      * destruct x; try discriminate Hx. reflexivity.
      * constructor; [left; auto | exact Hrel].
    + exists (o :: l'). simpl. rewrite Hc. simpl. rewrite Hl'. split.
      * reflexivity.
      * constructor; [right; eauto | exact Hrel].
Qed.

(** C5, as amended. For a one-to-many field declared with an entity class,
    assigning an instance of that class, a dict, or a list of dicts and
    instances makes the field hold a list of instances of the class: the
    instance alone, the instance constructed from the dict alone, or the list
    with every dict replaced by the instance constructed from it. *)
Theorem one_to_many_set_normalizes (c : EntityClass) (name : string)
    (instance : Entity) (value : pyval) :
  one_to_many_shape c value ->
  exists stored,
    OneToManyField__set__ (AClass c) name instance value
      = Ok (Field__set__ name instance (PList stored)) /\
    attr (Field__set__ name instance (PList stored)) name = PList stored /\
    list_of_instances c (PList stored) /\
    (isinstance value c = true -> stored = [value]) /\
    (forall kwargs, value = PDict kwargs ->
       exists o, construct c kwargs = Ok o /\ stored = [o]) /\
    (forall l, value = PList l -> Forall2 (item_normalized c) l stored).
Proof.
  unfold OneToManyField__set__. simpl.
  intros [Hinst | [(kwargs & o & -> & Hc) | (l & -> & Hl)]].
  - exists [value]. rewrite Hinst. simpl.
    split; [reflexivity |]. split; [apply attr_Field__set__ |].
    split; [exists [value]; split; [reflexivity | by repeat constructor] |].
    split; [reflexivity |].
    split; intros ? ->; discriminate Hinst.
  - exists [o]. simpl. rewrite Hc. simpl.
    split; [reflexivity |]. split; [apply attr_Field__set__ |].
    split; [exists [o]; split; [reflexivity | repeat constructor; eauto] |].
    split; [discriminate |].
    split; [intros ? [= <-]; eauto | discriminate].
  - destruct (convert_items_normalizes c l Hl) as (l' & Hl' & Hrel).
    exists l'. simpl. rewrite Hl'. simpl.
    split; [reflexivity |]. split; [apply attr_Field__set__ |].
    split.
    { exists l'. split; [reflexivity |].
      clear Hl Hl'. induction Hrel; constructor; eauto using item_normalized_instance. }
    split; [discriminate |].
    split; [discriminate | intros ? [= <-]; exact Hrel].
Qed.

(** A field declared with the name of a class cannot be assigned: [__set__]
    hands the name itself to [isinstance]. *)
Lemma one_to_many_set_by_name (n name : string) (instance : Entity)
    (value : pyval) :
  OneToManyField__set__ (AName n) name instance value = Raise TypeError.
Proof. reflexivity. Qed.

End OneToMany.

Section OneToManyWitness.
Import Samples.

Lemma one_to_many_set_normalizes_witness :
  exists stored,
    OneToManyField__set__ (AClass PetEntity) "pets" owner
        (PDict {["name" := PStr "Liberty"]})
      = Ok (Field__set__ "pets" owner (PList stored))
    /\ stored = [PObj "PetEntity" {["name" := PStr "Liberty"]}].
Proof.
  assert (Hcons : forall c kwargs o,
             construct c kwargs = Ok o -> isinstance o c = true).
  { intros c kwargs o [= <-]. simpl. apply String.eqb_refl. }
  destruct (one_to_many_set_normalizes Hcons PetEntity "pets" owner
              (PDict {["name" := PStr "Liberty"]})) as (stored & Hset & _ & _ & _ & Hd & _).
  { right. left. eexists _, _. split; reflexivity. }
  exists stored. split; [exact Hset |].
  destruct (Hd _ eq_refl) as (o & [= <-] & ->). reflexivity.
Defined.

(** C5, as stated, fails on a sequence that is not a list: a tuple with one
    dict is stored as it is, and the dict is not converted. *)
Lemma one_to_many_tuple_not_normalized :
  OneToManyField__set__ (AClass PetEntity) "pets" owner
      (PTuple [PDict {["name" := PStr "Willow"]}])
    = Ok (Field__set__ "pets" owner (PTuple [PDict {["name" := PStr "Willow"]}]))
  /\ attr (Field__set__ "pets" owner (PTuple [PDict {["name" := PStr "Willow"]}]))
          "pets"
       = PTuple [PDict {["name" := PStr "Willow"]}]
  /\ ~ list_of_instances PetEntity
        (attr (Field__set__ "pets" owner
                 (PTuple [PDict {["name" := PStr "Willow"]}])) "pets").
Proof.
  split; [reflexivity |].
  split; [apply attr_Field__set__ |].
  rewrite attr_Field__set__. intros (l & Heq & _). discriminate Heq.
Qed.

End OneToManyWitness.

Section Serialisation.

(** The loop of [get_values] only removes keys. *)
Lemma pop_none_absent (kvs : list (string * pyval)) (acc : gmap string pyval)
    (k : string) :
  acc !! k = None ->
  foldl (fun a kv => if is_none kv.2 then delete kv.1 a else a) acc kvs !! k
    = None.
Proof.
  revert acc. induction kvs as [| [k' v] kvs IH]; intros acc Hacc; simpl.
  - exact Hacc.
  - apply IH. destruct (is_none v); [| exact Hacc].
    rewrite lookup_delete. case_decide; [reflexivity | exact Hacc].
Qed.

(** A key listed with [None] is gone after the loop. *)
Lemma pop_none_listed (kvs : list (string * pyval)) (acc : gmap string pyval)
    (k : string) :
  (k, PNone) ∈ kvs ->
  foldl (fun a kv => if is_none kv.2 then delete kv.1 a else a) acc kvs !! k
    = None.
Proof.
  revert acc. induction kvs as [| [k' v] kvs IH]; intros acc Hin; simpl.
  - by apply elem_of_nil in Hin.
  - apply elem_of_cons in Hin as [[= <- <-] | Hin].
    + simpl. apply pop_none_absent. apply lookup_delete_eq.
    + by apply IH.
Qed.

(** A key not listed with [None] is left alone by the loop. *)
Lemma pop_none_unlisted (kvs : list (string * pyval)) (acc : gmap string pyval)
    (k : string) :
  (k, PNone) ∉ kvs ->
  foldl (fun a kv => if is_none kv.2 then delete kv.1 a else a) acc kvs !! k
    = acc !! k.
Proof.
  revert acc. induction kvs as [| [k' v] kvs IH]; intros acc Hnin; simpl.
  - reflexivity.
  - apply not_elem_of_cons in Hnin as [Hne Hnin].
    rewrite IH by exact Hnin.
    destruct v; simpl; try reflexivity.
    apply lookup_delete_ne. congruence.
Qed.

Lemma get_values_lookup (self : Entity) (k : string) :
  get_values self !! k
    = match values self !! k with
      | Some PNone => None
      | other => other
      end.
Proof.
  unfold get_values.
  destruct (values self !! k) as [v |] eqn:Hk.
  - destruct v;
      try (rewrite pop_none_unlisted;
           [by rewrite Hk
           | intros Hin; apply elem_of_map_to_list in Hin; congruence]).
    apply pop_none_listed. by apply elem_of_map_to_list.
  - by apply pop_none_absent.
Qed.

(** C9. [get_values] is the mapping of the field values without the fields
    whose value is [None]; a field assigned [None] is therefore absent, and
    the result is the one of an instance without that field. *)
Theorem get_values_omits_none (self : Entity) :
  (forall k, get_values self !! k
             = match values self !! k with
               | Some PNone => None
               | other => other
               end) /\
  (forall k, get_values (Field__set__ k self PNone) !! k = None) /\
  (forall k, get_values (Field__set__ k self PNone)
             = get_values {| cls := cls self;
                             values := delete k (values self) |}).
Proof.
  split; [apply get_values_lookup |]. split.
  - intros k. rewrite get_values_lookup. simpl. by rewrite lookup_insert_eq.
  - intros k. apply map_eq. intros j. rewrite !get_values_lookup. simpl.
    destruct (decide (k = j)) as [-> | Hne].
    + by rewrite lookup_insert_eq, lookup_delete_eq.
    + by rewrite lookup_insert_ne, lookup_delete_ne.
Qed.

End Serialisation.

End OrmSpec.

(* ===================================================================== *)
(** ** Properties of robottelo/cli/factory.py *)
(* ===================================================================== *)

Module FactorySpec.
Import Factory.

Section Strings.

Lemma append_assoc (a b c : string) : (a ++ b) ++ c = a ++ (b ++ c).
Proof.
  induction a as [| x a IH]; [reflexivity |].
  change (String x ((a ++ b) ++ c) = String x (a ++ (b ++ c))).
  f_equal. exact IH.
Qed.

Lemma append_empty_r (a : string) : a ++ "" = a.
Proof.
  induction a as [| x a IH]; [reflexivity |].
  change (String x (a ++ "") = String x a).
  f_equal. exact IH.
Qed.

Lemma split_lines_nonempty (s : string) : split_lines s <> [].
Proof.
  induction s as [| c s IH]; simpl; [discriminate |].
  destruct (Ascii.eqb c _); [discriminate |].
  destruct (split_lines s); discriminate.
Qed.

Lemma split_lines_one_line (s : string) : Forall one_line (split_lines s).
Proof.
  induction s as [| c s IH]; simpl.
  - repeat constructor.
  - destruct (Ascii.eqb c _) eqn:Hc.
    + constructor; [constructor | exact IH].
    + destruct (split_lines s) as [| line lines].
      * repeat constructor. exact Hc.
      * inversion IH; subst. constructor; [by constructor | assumption].
Qed.

Lemma split_lines_of_one_line (line : string) :
  one_line line -> split_lines line = [line].
Proof.
  induction 1 as [| c s Hc _ IH]; simpl; [reflexivity |].
  by rewrite Hc, IH.
Qed.

Lemma split_lines_first (line rest : string) :
  one_line line ->
  split_lines (line ++ newline ++ rest) = line :: split_lines rest.
Proof.
  induction 1 as [| c s Hc _ IH]; simpl; [reflexivity |].
  by rewrite Hc, IH.
Qed.

(** Splitting what was joined gives the lines back. *)
Lemma split_lines_join (lines : list string) :
  lines <> [] -> Forall one_line lines ->
  split_lines (join newline lines) = lines.
Proof.
  induction lines as [| line lines IH]; [congruence |].
  intros _ Hall. inversion Hall as [| ? ? Hline Hrest]; subst.
  destruct lines as [| line' lines].
  - simpl. by apply split_lines_of_one_line.
  - change (join newline (line :: line' :: lines))
      with (line ++ newline ++ join newline (line' :: lines)).
    rewrite split_lines_first by exact Hline.
    f_equal. apply IH; [discriminate | exact Hrest].
Qed.

Lemma one_line_indented (line : string) :
  one_line line -> one_line ("  " ++ line).
Proof. intros Hl. simpl. by repeat constructor. Qed.

(** The lines of the formatted message are the lines of the message, each
    after two spaces. *)
Lemma _format_error_msg_lines (msg : string) :
  split_lines (_format_error_msg msg)
    = map (fun line => "  " ++ line) (split_lines msg).
Proof.
  unfold _format_error_msg. apply split_lines_join.
  - pose proof (split_lines_nonempty msg).
    destruct (split_lines msg); [congruence | discriminate].
  - pose proof (split_lines_one_line msg) as Hall.
    induction Hall; constructor; auto using one_line_indented.
Qed.

End Strings.

Section CreateObject.
Context `{Platform}.

(** The outcome and the trace of a creation call, by the return code. *)
Lemma create_object_run (cli_object : CliObject) (args : gmap string pyval)
    (t : list event) :
  create_object cli_object args t
    = let result := create cli_object args in
      let submitted :=
        (t ++ [Created (__name__ cli_object) args; Slept 5])%list in
      if (return_code result =? 0)%Z then
        (Ok (unwrap (stdout result)), submitted)
      else
        (Raise (CLIFactoryError
                  (failure_message (__name__ cli_object) args (stderr result))),
         (submitted ++ [Logged (stderr result)])%list).
Proof.
  unfold create_object, call_create, sleep_for_seconds, logger_debug,
    mbind, emit, ret, raise.
  simpl. rewrite <- !(assoc_L (++)%list). simpl.
  destruct (return_code (create cli_object args) =? 0)%Z; simpl.
  - reflexivity.
  - by rewrite <- !(assoc_L (++)%list).
Qed.



(** C7. A backend output that is a list with one mapping is normalized to the
    same value as the output that is the mapping itself: the two creation
    calls have the same outcome and the same trace. *)
Theorem create_object_unwrap_idempotent (name : string)
    (rc : gmap string pyval -> Z) (err : gmap string pyval -> string)
    (m : gmap string pyval -> gmap string pyval) (args : gmap string pyval) :
  run (create_object
         {| __name__ := name;
            create := fun a => {| return_code := rc a;
                                  stdout := PList [PDict (m a)];
                                  stderr := err a |} |} args)
    = run (create_object
             {| __name__ := name;
                create := fun a => {| return_code := rc a;
                                      stdout := PDict (m a);
                                      stderr := err a |} |} args)
  /\ unwrap (PList [PDict (m args)]) = unwrap (PDict (m args))
  /\ unwrap (PDict (m args)) = PDict (m args).
Proof.
  unfold run. rewrite !create_object_run. simpl. auto.
Qed.

(** C10. On success [create_object] returns the first element of an output
    that is a non-empty list, whatever follows it, and returns an empty list
    as it is. *)
Theorem create_object_returns_first (cli_object : CliObject)
    (args : gmap string pyval) :
  return_code (create cli_object args) = 0%Z ->
  (forall first rest,
     stdout (create cli_object args) = PList (first :: rest) ->
     fst (run (create_object cli_object args)) = Ok first) /\
  (stdout (create cli_object args) = PList [] ->
     fst (run (create_object cli_object args)) = Ok (PList [])).
Proof.
  intros Hrc. unfold run. rewrite create_object_run. simpl. rewrite Hrc. simpl.
  split.
  - intros first rest ->. reflexivity.
  - intros ->. reflexivity.
Qed.

End CreateObject.

Section CreateObjectWitness.
Import Samples.




Lemma create_object_returns_first_witness :
  fst (run (create_object
              {| __name__ := "Org";
                 create := fun _ =>
                   {| return_code := 0;
                      stdout := PList [PStr "first"; PStr "second"];
                      stderr := "" |} |} ∅))
    = Ok (PStr "first").
Proof.
  match goal with
  | |- fst (run (create_object ?cli ?args)) = _ =>
      destruct (create_object_returns_first cli args) as [Hfirst _];
        [reflexivity | apply (Hfirst (PStr "first") [PStr "second"])]
  end.
  reflexivity.
Defined.

End CreateObjectWitness.

Section ActivationKey.
Context `{Platform} `{Helpers} `{CliObjects}.

Lemma truthy_option_get (o : gmap string pyval) (key : string) :
  truthy (option_get o key) = true -> truthy (PDict o) = true.
Proof.
  unfold option_get, dict_get. destruct (o !! key) as [v |] eqn:Hk;
    [| discriminate].
  intros _. simpl. apply negb_true_iff, Nat.eqb_neq.
  intros Hsize. apply map_size_empty_iff in Hsize. subst o.
  by rewrite lookup_empty in Hk.
Qed.

Lemma organization_missing_false (o : gmap string pyval) (key : string) :
  In key ORG_KEYS -> truthy (option_get o key) = true ->
  organization_missing (Some o) = false.
Proof.
  intros Hkey Htrue. unfold organization_missing.
  rewrite (truthy_option_get o key Htrue). simpl.
  destruct Hkey as [<- | [<- | [<- | []]]]; rewrite Htrue; simpl;
    rewrite ?andb_false_r; reflexivity.
Qed.

Lemma organization_missing_true (options : option (gmap string pyval)) :
  (forall o key, options = Some o -> In key ORG_KEYS ->
                 truthy (option_get o key) = false) ->
  organization_missing options = true.
Proof.
  intros Hnone. destruct options as [o |]; [| reflexivity].
  unfold organization_missing.
  rewrite !(Hnone o) by (simpl; auto). simpl. apply orb_true_r.
Qed.

(** C3. With exactly one of the three organization keys set to a true value,
    [make_activation_key] passes the organization check and goes on to the
    backend; with none of them set to a true value (no options at all, or an
    empty dict, among others) it raises [CLIFactoryError] and the backend is
    not called. *)
Theorem make_activation_key_organization (r : rand) :
  (forall o key,
     In key ORG_KEYS ->
     truthy (option_get o key) = true ->
     (forall other, In other ORG_KEYS -> other <> key ->
                    truthy (option_get o other) = false) ->
     organization_missing (Some o) = false /\
     exists args rest,
       snd (run (make_activation_key (Some o) r))
         = Created (__name__ ActivationKey) args :: rest) /\
  (forall options,
     (forall o key, options = Some o -> In key ORG_KEYS ->
                    truthy (option_get o key) = false) ->
     run (make_activation_key options r)
       = (Raise (CLIFactoryError "Please provide a valid Organization."), [])) /\
  run (make_activation_key (Some ∅) r)
    = (Raise (CLIFactoryError "Please provide a valid Organization."), []) /\
  run (make_activation_key None r)
    = (Raise (CLIFactoryError "Please provide a valid Organization."), []).
Proof.
  split; [| split; [| split]].
  - intros o key Hkey Htrue _.
    pose proof (organization_missing_false o key Hkey Htrue) as Hpass.
    split; [exact Hpass |].
    unfold run, make_activation_key. rewrite Hpass.
    unfold mbind at 1. rewrite create_object_run. simpl.
    destruct (return_code _ =? 0)%Z; simpl.
    + unfold mbind, lift, ret.
      destruct (dict_update _ _); simpl; eauto.
    + eauto.
  - intros options Hnone. unfold run, make_activation_key.
    by rewrite organization_missing_true.
  - reflexivity.
  - reflexivity.
Qed.

End ActivationKey.

Section ActivationKeyWitness.
Import Samples.

Lemma make_activation_key_organization_witness :
  (exists args rest,
     snd (run (make_activation_key (Some {["organization-id" := PInt 3]}) tape))
       = Created "ActivationKey" args :: rest) /\
  run (make_activation_key (Some {["name" := PStr "key"]}) tape)
    = (Raise (CLIFactoryError "Please provide a valid Organization."), []).
Proof.
  destruct (make_activation_key_organization tape) as (Hone & Hnone & _).
  split.
  - destruct (Hone {["organization-id" := PInt 3]} "organization-id")
      as (_ & Hcall).
    + simpl. auto.
    + reflexivity.
    + intros other [<- | [<- | [<- | []]]] Hne; try reflexivity. congruence.
    + exact Hcall.
  - apply Hnone. intros o key [= <-] [<- | [<- | [<- | []]]]; reflexivity.
Defined.

End ActivationKeyWitness.

Section MakeOrg.
Context `{Platform} `{Helpers} `{CliObjects}.

(** The helpers behave as the specification describes them. *)
Hypothesis name_nonempty : generate_name_nonempty.
Hypothesis overlay_keeps : update_dictionary_keeps.


End MakeOrg.

Section MakeOrgWitness.
Import Samples.


End MakeOrgWitness.

End FactorySpec.

(* ===================================================================== *)
(** ** Further properties of robottelo/orm.py *)
(* ===================================================================== *)

Module OrmExtra.
Import Orm.

Section PathCases.
Context `{Platform}.
Variable get_server_url : string.


End PathCases.

Section PathCasesWitness.
Import Samples.


End PathCasesWitness.

Section SerialisationMore.

(** X2. [get_values] is idempotent, and it is the identity on an instance
    none of whose fields is [None]. *)
Theorem get_values_idempotent (self : Entity) :
  get_values {| cls := cls self; values := get_values self |}
    = get_values self /\
  ((forall k, values self !! k <> Some PNone) ->
     get_values self = values self).
Proof.
  split.
  - apply map_eq. intros k. rewrite !OrmSpec.get_values_lookup. simpl.
    rewrite OrmSpec.get_values_lookup.
    destruct (values self !! k) as [[] |]; reflexivity.
  - intros Hno. apply map_eq. intros k. rewrite OrmSpec.get_values_lookup.
    specialize (Hno k). destruct (values self !! k) as [[] |]; congruence.
Qed.

Lemma get_values_idempotent_witness :
  get_values {| cls := Samples.OwnerEntity;
                values := {["name" := PStr "foo"]} |}
    = {["name" := PStr "foo"]}.
Proof.
  destruct (get_values_idempotent
              {| cls := Samples.OwnerEntity;
                 values := {["name" := PStr "foo"]} |}) as [_ Hid].
  rewrite Hid; [reflexivity |].
  intros k. simpl. destruct (decide (k = "name")) as [-> | Hne].
  - rewrite lookup_singleton_eq. discriminate.
  - rewrite lookup_singleton_ne by congruence. discriminate.
Defined.

End SerialisationMore.

Section OneToManyMore.
Context `{Booby}.

Lemma convert_items_length (entity : class_or_name) (l l' : list pyval) :
  convert_items entity l = Ok l' -> length l' = length l.
Proof.
  revert l'. induction l as [| x l IH]; simpl; intros l'.
  - by intros [= <-].
  - destruct (match x with PDict kwargs => call_entity entity kwargs
                         | _ => Ok x end) as [x' |]; simpl; [| discriminate].
    destruct (convert_items entity l) as [rest |]; simpl; [| discriminate].
    intros [= <-]. simpl. by rewrite (IH rest).
Qed.

Lemma convert_items_keeps (entity : class_or_name) (l l' : list pyval)
    (i : nat) (x : pyval) :
  convert_items entity l = Ok l' ->
  l !! i = Some x -> (forall kwargs, x <> PDict kwargs) ->
  l' !! i = Some x.
Proof.
  revert l' i. induction l as [| y l IH]; simpl; intros l' i Hconv Hi Hx.
  - by rewrite lookup_nil in Hi.
  - destruct (match y with PDict kwargs => call_entity entity kwargs
                         | _ => Ok y end) as [y' |] eqn:Hy; simpl in Hconv;
      [| discriminate].
    destruct (convert_items entity l) as [rest |]; simpl in Hconv;
      [| discriminate].
    injection Hconv as <-.
    destruct i as [| i]; simpl in *.
    + injection Hi as ->. destruct x; try (by injection Hy as <-).
      by destruct (Hx d).
    + by apply IH.
Qed.

(** X3. Assigning a list to a one-to-many field declared with a class keeps
    the length of the list and keeps every item that is not a dict where it
    is, as it is: the assignment does not check that the items are
    instances. *)
Theorem one_to_many_set_list (c : EntityClass) (name : string)
    (instance : Entity) (l : list pyval) (e' : Entity) :
  OneToManyField__set__ (AClass c) name instance (PList l) = Ok e' ->
  exists l',
    attr e' name = PList l' /\
    length l' = length l /\
    (forall i x, l !! i = Some x -> (forall kwargs, x <> PDict kwargs) ->
                 l' !! i = Some x).
Proof.
  unfold OneToManyField__set__. simpl.
  destruct (convert_items (AClass c) l) as [l' |] eqn:Hconv; simpl;
    [| discriminate].
  intros [= <-]. exists l'. split; [| split].
  - unfold attr, dict_get, Field__set__. simpl. by rewrite lookup_insert_eq.
  - by eapply convert_items_length.
  - intros i x. by eapply convert_items_keeps.
Qed.



(** X6. The two relationship fields synthesize the same instance, the
    one-to-many field in a list of one; a target given by name is the class
    of that name in [robottelo.entities], and a name that is not there
    raises [AttributeError]. *)
Theorem relationship_get_value `{FauxFactory} (target : class_or_name)
    (o o' : gmap string pyval) (r : rand) :
  get_value {| fclass := OneToManyField target; options := o |} r
    = bind (get_value {| fclass := OneToOneField target; options := o' |} r)
           (fun v => Ok (PList [v])) /\
  (forall n c, target = AName n -> entities !! n = Some c ->
     get_value {| fclass := OneToManyField target; options := o |} r
       = get_value {| fclass := OneToManyField (AClass c); options := o |} r) /\
  (forall n, target = AName n -> entities !! n = None ->
     get_value {| fclass := OneToManyField target; options := o |} r
       = Raise AttributeError
     /\ get_value {| fclass := OneToOneField target; options := o |} r
          = Raise AttributeError).
Proof.
  unfold get_value. simpl. split; [| split].
  - destruct (_get_class target) as [c |]; simpl; [| reflexivity].
    destruct (construct c ∅); reflexivity.
  - intros n c -> Hn. simpl. by rewrite Hn.
  - intros n -> Hn. simpl. by rewrite Hn.
Qed.

(** X7. [IntegerField.get_value] draws its random integer before it looks at
    the options: when [generate_integer] raises, [get_value] raises the same,
    even for a field that declares a default. *)
Theorem integer_get_value_draws_first `{FauxFactory} (min_val max_val : pyval)
    (o : gmap string pyval) (r : rand) (e : exn) :
  generate_integer min_val max_val r = Raise e ->
  get_value {| fclass := IntegerField min_val max_val; options := o |} r
    = Raise e.
Proof. unfold get_value. simpl. by intros ->. Qed.

End OneToManyMore.

Section OneToManyMoreWitness.
Import Samples.

Lemma one_to_many_set_list_witness :
  exists l',
    attr (Field__set__ "pets" owner
            (PList [PInt 3; PObj "PetEntity" {["name" := PStr "Willow"]}]))
         "pets" = PList l'
    /\ length l' = 2%nat.
Proof.
  destruct (one_to_many_set_list PetEntity "pets" owner
              [PInt 3; PDict {["name" := PStr "Willow"]}]
              (Field__set__ "pets" owner
                 (PList [PInt 3; PObj "PetEntity" {["name" := PStr "Willow"]}])))
    as (l' & Hattr & Hlen & _); [reflexivity |].
  exists l'. split; [exact Hattr | exact Hlen].
Defined.



Lemma relationship_get_value_witness :
  get_value {| fclass := OneToManyField (AName "PetEntity"); options := ∅ |}
            tape
    = Ok (PList [PObj "PetEntity" ∅]) /\
  get_value {| fclass := OneToOneField (AName "Dragon"); options := ∅ |} tape
    = Raise AttributeError.
Proof.
  destruct (relationship_get_value (AName "PetEntity") ∅ ∅ tape)
    as (_ & Hname & _).
  destruct (relationship_get_value (AName "Dragon") ∅ ∅ tape)
    as (_ & _ & Hnone).
  split.
  - rewrite (Hname "PetEntity" PetEntity); reflexivity.
  - apply (Hnone "Dragon"); reflexivity.
Defined.

Lemma integer_get_value_draws_first_witness :
  get_value {| fclass := IntegerField (PInt 5) (PInt 1);
               options := {["default" := PInt 3]} |} tape
    = Raise ValueError.
Proof.
  apply integer_get_value_draws_first. reflexivity.
Defined.

End OneToManyMoreWitness.

End OrmExtra.

(* ===================================================================== *)
(** ** Further properties of robottelo/cli/factory.py *)
(* ===================================================================== *)

Module FactoryExtra.
Import Factory FactoryMore.

Section ErrorMessage.

(** Joining the lines of a string gives the string back. *)
Lemma join_split_lines (s : string) : join newline (split_lines s) = s.
Proof.
  induction s as [| c s IH]; [reflexivity |].
  simpl. destruct (Ascii.eqb c (ascii_of_nat 10)) eqn:Hc.
  - apply Ascii.eqb_eq in Hc. subst c.
    pose proof (FactorySpec.split_lines_nonempty s) as Hne.
    destruct (split_lines s) as [| line lines]; [congruence |].
    change (join newline ("" :: line :: lines))
      with (newline ++ join newline (line :: lines)).
    rewrite IH. reflexivity.
  - pose proof (FactorySpec.split_lines_nonempty s) as Hne.
    destruct (split_lines s) as [| line lines]; [congruence |].
    rewrite <- IH. destruct lines; reflexivity.
Qed.

(** X8. [_format_error_msg] loses nothing: two diagnostics with the same
    formatted text are the same diagnostic. *)
Theorem _format_error_msg_injective (a b : string) :
  _format_error_msg a = _format_error_msg b -> a = b.
Proof.
  intros Heq.
  assert (Hlines : map (fun line => "  " ++ line) (split_lines a)
                   = map (fun line => "  " ++ line) (split_lines b)).
  { rewrite <- !FactorySpec._format_error_msg_lines. by rewrite Heq. }
  assert (Hsplit : split_lines a = split_lines b).
  { revert Hlines. generalize (split_lines a) (split_lines b).
    induction l as [| x l IH]; intros [| y l']; simpl; try discriminate.
    - reflexivity.
    - intros [= Hx Hl]. f_equal; [exact Hx | by apply IH]. }
  rewrite <- (join_split_lines a), <- (join_split_lines b).
  by rewrite Hsplit.
Qed.

End ErrorMessage.

Section ErrorMessageWitness.

Lemma _format_error_msg_injective_witness :
  "a" ++ newline ++ "b" = "a" ++ newline ++ "b".
Proof.
  apply _format_error_msg_injective. reflexivity.
Defined.

End ErrorMessageWitness.

Section Creation.
Context `{Platform}.

(** X9. [create_object] unwraps one level only: what it returns is a list
    only when the output of the backend is the empty list or a list whose
    first element is itself a list. *)
Theorem create_object_returns_list (cli_object : CliObject)
    (args : gmap string pyval) (l : list pyval) :
  fst (run (create_object cli_object args)) = Ok (PList l) ->
  (stdout (create cli_object args) = PList [] /\ l = [])
  \/ exists rest, stdout (create cli_object args) = PList (PList l :: rest).
Proof.
  unfold run. rewrite FactorySpec.create_object_run. simpl.
  destruct (return_code _ =? 0)%Z; simpl; [| discriminate].
  destruct (stdout (create cli_object args)) as [| | | | | [| first rest] | | |];
    simpl; try discriminate.
  - intros [= <-]. by left.
  - intros [= ->]. right. by exists rest.
Qed.

(** The end every factory has: submit, then lay the answer over the
    arguments. *)
Lemma submit_and_update_run (cli_object : CliObject)
    (args : gmap string pyval) :
  run (do! created := create_object cli_object args in
       do! args' := lift (dict_update args created) in
       ret args')
    = let result := create cli_object args in
      if (return_code result =? 0)%Z then
        (bind (dict_update args (unwrap (stdout result))) Ok,
         [Created (__name__ cli_object) args; Slept 5])
      else
        (Raise (CLIFactoryError
                  (failure_message (__name__ cli_object) args (stderr result))),
         [Created (__name__ cli_object) args; Slept 5;
          Logged (stderr result)]).
Proof.
  unfold run. unfold mbind at 1. rewrite FactorySpec.create_object_run. simpl.
  destruct (return_code _ =? 0)%Z; simpl; [| reflexivity].
  unfold mbind, lift, ret. by destruct (dict_update _ _).
Qed.

Lemma submit_and_update_first (cli_object : CliObject)
    (args : gmap string pyval) :
  exists rest,
    snd (run (do! created := create_object cli_object args in
              do! args' := lift (dict_update args created) in
              ret args'))
      = Created (__name__ cli_object) args :: Slept 5 :: rest.
Proof.
  rewrite submit_and_update_run. simpl.
  destruct (return_code _ =? 0)%Z; simpl; eauto.
Qed.

End Creation.

Section CreationWitness.
Import Samples.

Lemma create_object_returns_list_witness :
  stdout (create {| __name__ := "Org";
                    create := fun _ =>
                      {| return_code := 0;
                         stdout := PList [PList [PInt 1]; PInt 2];
                         stderr := "" |} |} ∅)
    = PList [PList [PInt 1]; PInt 2].
Proof.
  destruct (create_object_returns_list
              {| __name__ := "Org";
                 create := fun _ =>
                   {| return_code := 0;
                      stdout := PList [PList [PInt 1]; PInt 2];
                      stderr := "" |} |} ∅ [PInt 1] eq_refl)
    as [[Hempty _] | [rest Hrest]].
  - discriminate Hempty.
  - reflexivity.
Defined.

End CreationWitness.

Section Factories.
Context `{Platform} `{Helpers} `{CliObjects}.


(** X11. When [make_activation_key] succeeds, the answer of the backend is
    laid over the submitted arguments: a key of the answer has the value of
    the answer, also when the caller supplied another, and every other key
    has the submitted value. *)
Theorem make_activation_key_answer_wins (o : gmap string pyval) (r : rand)
    (answer : gmap string pyval) :
  let args :=
    update_dictionary (activation_key_defaults (generate_name [] r)) (Some o) in
  organization_missing (Some o) = false ->
  return_code (create ActivationKey args) = 0%Z ->
  unwrap (stdout (create ActivationKey args)) = PDict answer ->
  run (make_activation_key (Some o) r)
    = (Ok (answer ∪ args), [Created (__name__ ActivationKey) args; Slept 5]) /\
  (forall k, (answer ∪ args) !! k
             = match answer !! k with
               | Some v => Some v
               | None => args !! k
               end).
Proof.
  intros args Hpass Hrc Hout. split.
  - unfold make_activation_key. rewrite Hpass. fold args.
    rewrite submit_and_update_run. simpl. rewrite Hrc. simpl.
    by rewrite Hout.
  - intros k. rewrite lookup_union.
    destruct (answer !! k), (args !! k); reflexivity.
Qed.

End Factories.

Section FactoriesWitness.
Import Samples.


Lemma make_activation_key_answer_wins_witness :
  exists created,
    fst (run (make_activation_key
                (Some {["organization-id" := PInt 3]}) tape)) = Ok created /\
    created !! "id" = Some (PInt 1) /\
    created !! "organization-id" = Some (PInt 3).
Proof.
  pose (args := update_dictionary
                  (activation_key_defaults (generate_name [] tape))
                  (Some {["organization-id" := PInt 3]})).
  destruct (make_activation_key_answer_wins
              {["organization-id" := PInt 3]} tape (<["id" := PInt 1]> args))
    as [Hrun Hlook]; try reflexivity.
  exists (<["id" := PInt 1]> args ∪ args).
  split; [by rewrite Hrun |].
  split; rewrite Hlook; reflexivity.
Defined.

End FactoriesWitness.

Section Guards.
Context `{Platform} `{Helpers} `{Generators} `{MoreCliObjects}.

Lemma truthy_nonempty (o : gmap string pyval) :
  o <> ∅ -> truthy (PDict o) = true.
Proof.
  intros Hne. simpl. apply negb_true_iff, Nat.eqb_neq.
  intros Hsize. by apply map_size_empty_iff in Hsize.
Qed.

Lemma truthy_key_nonempty (o : gmap string pyval) (key : string) :
  truthy (option_get o key) = true -> truthy (PDict o) = true.
Proof.
  intros Hkey. apply truthy_nonempty. intros ->.
  unfold option_get, dict_get in Hkey. by rewrite lookup_empty in Hkey.
Qed.

Lemma any_key_nonempty (o : gmap string pyval) (keys : list string) :
  any_key o keys = true -> truthy (PDict o) = true.
Proof.
  unfold any_key. intros Hany. apply existsb_exists in Hany as (key & _ & Hkey).
  by eapply truthy_key_nonempty.
Qed.

(** X12. [make_content_view] and [make_repository] raise before anything is
    submitted when there are no options or the organization id (for a
    repository, the product id) is missing or false; with a true one they
    submit the defaults overlaid with the options. *)
Theorem make_content_view_and_repository_guard (r : rand) :
  (forall options,
     (forall o, options = Some o ->
                truthy (option_get o "organization-id") = false) ->
     run (make_content_view options r)
       = (Raise (CLIFactoryError "Please provide a valid ORG ID."), [])) /\
  (forall o,
     truthy (option_get o "organization-id") = true ->
     exists rest,
       snd (run (make_content_view (Some o) r))
         = Created (__name__ ContentView)
             (update_dictionary
                (content_view_defaults (generate_string "alpha" 10 r)) (Some o))
           :: Slept 5 :: rest) /\
  (forall options,
     (forall o, options = Some o ->
                truthy (option_get o "product-id") = false) ->
     run (make_repository options r)
       = (Raise (CLIFactoryError "Please provide a valid Product ID."), [])) /\
  (forall o,
     truthy (option_get o "product-id") = true ->
     exists rest,
       snd (run (make_repository (Some o) r))
         = Created (__name__ Repository)
             (update_dictionary
                (repository_defaults (generate_string "alpha" 15 r)) (Some o))
           :: Slept 5 :: rest).
Proof.
  split; [| split; [| split]].
  - intros [o |] Hfalse; unfold make_content_view; [| reflexivity].
    by rewrite (Hfalse o eq_refl), orb_true_r.
  - intros o Htrue. unfold make_content_view.
    rewrite Htrue, (truthy_key_nonempty o _ Htrue). simpl.
    apply submit_and_update_first.
  - intros [o |] Hfalse; unfold make_repository; [| reflexivity].
    by rewrite (Hfalse o eq_refl), orb_true_r.
  - intros o Htrue. unfold make_repository.
    rewrite Htrue, (truthy_key_nonempty o _ Htrue). simpl.
    apply submit_and_update_first.
Qed.

(** X13. [make_content_host] checks, in this order, that there are options,
    an organization key, a content view key and a lifecycle environment key,
    and raises for the first check that fails, before anything is submitted;
    the lifecycle check looks at [lifecycle-environment] and
    [lifecycle-environment-id] only. With all three groups present it
    submits. *)
Theorem make_content_host_checks (r : rand) :
  run (make_content_host None r)
    = (Raise (CLIFactoryError "Please provide required parameters"), []) /\
  run (make_content_host (Some ∅) r)
    = (Raise (CLIFactoryError "Please provide required parameters"), []) /\
  (forall o,
     o <> ∅ -> any_key o ORG_KEYS = false ->
     run (make_content_host (Some o) r)
       = (Raise (CLIFactoryError "Please provide a valid organization field."),
          [])) /\
  (forall o,
     any_key o ORG_KEYS = true -> any_key o CONTENT_VIEW_KEYS = false ->
     run (make_content_host (Some o) r)
       = (Raise (CLIFactoryError
                   "Please provide one of content-view, content-view-id."),
          [])) /\
  (forall o,
     any_key o ORG_KEYS = true -> any_key o CONTENT_VIEW_KEYS = true ->
     truthy (option_get o "lifecycle-environment") = false ->
     truthy (option_get o "lifecycle-environment-id") = false ->
     run (make_content_host (Some o) r)
       = (Raise (CLIFactoryError
                   "Please provide one of lifecycle-environment, lifecycle-environment-id."),
          [])) /\
  (forall o,
     any_key o ORG_KEYS = true -> any_key o CONTENT_VIEW_KEYS = true ->
     any_key o LIFECYCLE_KEYS = true ->
     exists args rest,
       snd (run (make_content_host (Some o) r))
         = Created (__name__ ContentHost) args :: Slept 5 :: rest).
Proof.
  split; [reflexivity |]. split; [reflexivity |].
  split; [| split; [| split]].
  - intros o Hne Horg. unfold make_content_host.
    by rewrite (truthy_nonempty o Hne), Horg.
  - intros o Horg Hcv. unfold make_content_host.
    by rewrite (any_key_nonempty o _ Horg), Horg, Hcv.
  - intros o Horg Hcv Hl Hlid. unfold make_content_host.
    rewrite (any_key_nonempty o _ Horg), Horg, Hcv.
    unfold any_key at 1. simpl. by rewrite Hl, Hlid.
  - intros o Horg Hcv Hlc. unfold make_content_host.
    rewrite (any_key_nonempty o _ Horg), Horg, Hcv, Hlc. simpl.
    eexists. apply submit_and_update_first.
Qed.

Lemma missing_options_In (o : gmap string pyval) (k : string) :
  In k (missing_options o)
  <-> In k required_options /\ (o !! k = None \/ o !! k = Some PNone).
Proof.
  unfold missing_options. rewrite filter_In.
  unfold option_get, dict_get.
  split; intros [Hk Hnone]; (split; [exact Hk |]).
  - destruct (o !! k) as [[] |]; try discriminate; auto.
  - by destruct Hnone as [-> | ->].
Qed.

(** X14. [make_host] without options, or with an empty dict, raises the
    error that names all seven required options; with options it raises the
    error that names, in the order of the declaration, exactly the required
    options that are absent or [None]; nothing is submitted in either
    case. *)
Theorem make_host_names_missing_options (r : rand) :
  run (make_host None r)
    = (Raise (CLIFactoryError
                "Options architecture-id, domain-id, environment-id, medium-id, operatingsystem-id, partition-table-id, puppet-proxy-id are required"),
       []) /\
  run (make_host (Some ∅) r) = run (make_host None r) /\
  (forall o,
     missing_options o <> [] ->
     run (make_host (Some o) r)
       = (Raise (CLIFactoryError (options_are_required (missing_options o))),
          [])) /\
  (forall o k,
     In k (missing_options o)
     <-> In k required_options /\ (o !! k = None \/ o !! k = Some PNone)).
Proof.
  split; [reflexivity |]. split; [reflexivity |]. split.
  - intros o Hmissing. unfold make_host.
    destruct (missing_options o); [congruence | reflexivity].
  - apply missing_options_In.
Qed.

(** X15. [make_host] submits as soon as each of the seven required options
    has a value other than [None]: a value that is false, such as [0] or the
    empty string, is enough. *)
Theorem make_host_accepts_any_value (o : gmap string pyval) (r : rand) :
  (forall k, In k required_options ->
             exists v, o !! k = Some v /\ is_none v = false) ->
  missing_options o = [] /\
  exists args rest,
    snd (run (make_host (Some o) r))
      = Created (__name__ Host) args :: Slept 5 :: rest.
Proof.
  intros Hall.
  assert (Hnone : missing_options o = []).
  { destruct (missing_options o) as [| k ks] eqn:Hm; [reflexivity |].
    assert (Hin : In k (missing_options o)) by (rewrite Hm; by left).
    apply missing_options_In in Hin as [Hk Hv].
    destruct (Hall k Hk) as (v & Hlook & Hv').
    destruct Hv as [Hv | Hv]; rewrite Hv in Hlook; [discriminate |].
    injection Hlook as <-. discriminate Hv'. }
  split; [exact Hnone |].
  unfold make_host. rewrite Hnone. simpl.
  eexists. apply submit_and_update_first.
Qed.

End Guards.

Section GuardsWitness.
Import Samples MoreSamples.

Lemma make_content_view_and_repository_guard_witness :
  run (make_content_view (Some {["name" := PStr "cv"]}) tape)
    = (Raise (CLIFactoryError "Please provide a valid ORG ID."), []) /\
  (exists rest,
     snd (run (make_repository (Some {["product-id" := PInt 4]}) tape))
       = Created "Repository"
           (update_dictionary (repository_defaults "abcde")
              (Some {["product-id" := PInt 4]}))
         :: Slept 5 :: rest).
Proof.
  destruct (make_content_view_and_repository_guard tape)
    as (Hcv & _ & _ & Hrepo).
  split.
  - apply Hcv. intros o [= <-]. reflexivity.
  - apply (Hrepo {["product-id" := PInt 4]}). reflexivity.
Defined.

Lemma make_content_host_checks_witness :
  run (make_content_host
         (Some (<["environment-id" := PInt 3]>
                  (<["content-view-id" := PInt 2]>
                     {["organization-id" := PInt 1]}))) tape)
    = (Raise (CLIFactoryError
                "Please provide one of lifecycle-environment, lifecycle-environment-id."),
       []) /\
  (exists args rest,
     snd (run (make_content_host (Some content_host_options) tape))
       = Created "ContentHost" args :: Slept 5 :: rest).
Proof.
  destruct (make_content_host_checks tape)
    as (_ & _ & _ & _ & Hlifecycle & Hpass).
  split.
  - apply Hlifecycle; reflexivity.
  - apply Hpass; reflexivity.
Defined.

Lemma make_host_names_missing_options_witness :
  run (make_host (Some (delete "domain-id" (delete "medium-id" host_options)))
                 tape)
    = (Raise (CLIFactoryError "Options domain-id, medium-id are required"),
       []).
Proof.
  destruct (make_host_names_missing_options tape) as (_ & _ & Hmissing & _).
  rewrite Hmissing; [reflexivity | discriminate].
Defined.

Lemma make_host_accepts_any_value_witness :
  exists args rest,
    snd (run (make_host (Some host_options) tape))
      = Created "Host" args :: Slept 5 :: rest.
Proof.
  destruct (make_host_accepts_any_value host_options tape) as [_ Hrun];
    [| exact Hrun].
  intros k [<- | [<- | [<- | [<- | [<- | [<- | [<- | []]]]]]]];
    eexists; split; reflexivity.
Defined.

End GuardsWitness.

Section ComputeResource.
Context `{Platform} `{Helpers} `{Constants} `{MoreCliObjects}.

(** X16. [make_compute_resource] completes the arguments before it submits
    them: a provider other than [None] leaves them as they are, also a url
    that is [None]; a provider that is [None] becomes libvirt, and only then
    a url that is [None] becomes the local qemu url; no other key changes;
    the completed arguments are the ones submitted. A [KeyError] means that
    the key [provider], or the key [url] next to a provider that is [None],
    is absent. *)
Theorem make_compute_resource_provider (args : gmap string pyval) :
  (forall p, args !! "provider" = Some p -> is_none p = false ->
     provider_defaults args = Present args) /\
  (forall u, args !! "provider" = Some PNone -> args !! "url" = Some u ->
     is_none u = false ->
     provider_defaults args
       = Present (<["provider" := FOREMAN_PROVIDERS_libvirt]> args)) /\
  (args !! "provider" = Some PNone -> args !! "url" = Some PNone ->
     provider_defaults args
       = Present (<["url" := PStr "qemu+tcp://localhost:16509/system"]>
                    (<["provider" := FOREMAN_PROVIDERS_libvirt]> args))) /\
  (forall args' k, provider_defaults args = Present args' ->
     k <> "provider" -> k <> "url" -> args' !! k = args !! k) /\
  (forall key, provider_defaults args = KeyError key ->
     (key = "provider" /\ args !! "provider" = None)
     \/ (key = "url" /\ args !! "url" = None
         /\ args !! "provider" = Some PNone)) /\
  (forall options r args',
     args = update_dictionary
              (compute_resource_defaults (generate_name [PInt 8; PInt 8] r))
              options ->
     provider_defaults args = Present args' ->
     exists m rest,
       make_compute_resource options r = Present m /\
       snd (run m) = Created (__name__ ComputeResource) args' :: Slept 5 :: rest).
Proof.
  unfold provider_defaults.
  split; [| split; [| split; [| split; [| split]]]].
  - intros p -> ->. reflexivity.
  - intros u -> Hu Hnone. simpl.
    rewrite lookup_insert_ne by discriminate. by rewrite Hu, Hnone.
  - intros -> Hu. simpl. rewrite lookup_insert_ne by discriminate.
    by rewrite Hu.
  - intros args' k Hres Hp Hu.
    destruct (args !! "provider") as [p |]; [| discriminate].
    destruct (is_none p); [| by injection Hres as <-].
    rewrite lookup_insert_ne in Hres by discriminate.
    destruct (args !! "url") as [u |]; [| discriminate].
    destruct (is_none u); injection Hres as <-.
    + by rewrite !lookup_insert_ne by congruence.
    + by rewrite lookup_insert_ne by congruence.
  - intros key Hres.
    destruct (args !! "provider") as [p |]; [| injection Hres as <-; by left].
    destruct p; simpl in Hres; try discriminate.
    rewrite lookup_insert_ne in Hres by discriminate.
    destruct (args !! "url") as [u |]; [| injection Hres as <-; by right].
    destruct (is_none u); discriminate.
  - intros options r args' -> Hres. unfold make_compute_resource.
    unfold provider_defaults. rewrite Hres.
    destruct (submit_and_update_first ComputeResource args') as [rest Hrest].
    eexists _, rest. split; [reflexivity | exact Hrest].
Qed.

End ComputeResource.

Section ComputeResourceWitness.
Import Samples MoreSamples.

Lemma make_compute_resource_provider_witness :
  provider_defaults (compute_resource_defaults "cr")
    = Present (<["url" := PStr "qemu+tcp://localhost:16509/system"]>
                 (<["provider" := PStr "Libvirt"]>
                    (compute_resource_defaults "cr"))) /\
  provider_defaults (<["provider" := PStr "EC2"]> (compute_resource_defaults "cr"))
    = Present (<["provider" := PStr "EC2"]> (compute_resource_defaults "cr")).
Proof.
  destruct (make_compute_resource_provider (compute_resource_defaults "cr"))
    as (_ & _ & Hboth & _).
  destruct (make_compute_resource_provider
              (<["provider" := PStr "EC2"]> (compute_resource_defaults "cr")))
    as (Hgiven & _).
  split.
  - apply Hboth; reflexivity.
  - apply (Hgiven (PStr "EC2")); reflexivity.
Defined.

End ComputeResourceWitness.

End FactoryExtra.

(* ===================================================================== *)
(** ** Properties of scripts/graph_entities.py *)
(* ===================================================================== *)

Module GraphExtra.
Import Orm GraphEntities.

Section Graph.
Context `{ClassFormat}.

Lemma field_lines_length (entity_name : string) (named : string * field) :
  length (field_lines entity_name named)
    = if is_relationship named.2 then 1%nat else 0%nat.
Proof.
  unfold field_lines, is_relationship. by destruct (fclass named.2).
Qed.

Lemma fields_lines_length (entity_name : string)
    (fields : list (string * field)) :
  length (concat (map (field_lines entity_name) fields))
    = length (List.filter (fun named => is_relationship named.2) fields).
Proof.
  induction fields as [| named fields IH]; [reflexivity |].
  simpl. rewrite length_app, field_lines_length, IH.
  by destruct (is_relationship named.2).
Qed.

(** X17. The graph the script prints opens with [digraph dependencies {],
    closes with [}] and has, in between, one line for each relationship
    field of each entity and one line for each entity that is not a factory:
    the other fields print nothing. *)
Theorem graph_line_count (entities_ : list (string * entity_decl)) :
  head (graph entities_) = Some "digraph dependencies {" /\
  last (graph entities_) = Some "}" /\
  length (graph entities_)
    = (2 + length (List.filter (fun named => is_relationship named.2)
                     (concat (map (fun e => decl_fields e.2) entities_)))
         + length (List.filter (fun e => negb (is_factory e.2)) entities_))%nat.
Proof.
  unfold graph. split; [reflexivity |]. split.
  - rewrite app_comm_cons. apply last_snoc.
  - simpl. rewrite length_app. simpl.
    induction entities_ as [| e es IH]; [reflexivity |].
    simpl. rewrite length_app. unfold entity_lines at 1.
    rewrite length_app, fields_lines_length.
    rewrite List.filter_app, length_app.
    destruct (is_factory e.2); simpl; lia.
Qed.

End Graph.

End GraphExtra.
